(** * epicsdbbuilder: constant link values ([ConstArray])

    A shallow embedding of [epicsdbbuilder/const_array.py] together with
    the properties of the builder's specification that concern it.

    The class [ConstArray] wraps a non-empty, homogeneous list of
    constants and renders it as an EPICS constant link, for instance
    a bracketed list of quoted strings or of numbers such as [1,2,3].

    Layout of the development:
    - Python values, classes and [isinstance];
    - assertions as an error outcome;
    - [ConstArray]: [_sanitize], [__init__], [_format_constant],
      [Validate], [FormatDb], [__repr__];
    - the same constructor over a store of list objects (module [Heap]),
      where the caller's list and the stored list are distinct objects;
    - an instance of the code that [const_array.py] calls but does not
      define (module [Sample]), to evaluate the model on examples;
    - the vocabulary of the specification, then lemmas and theorems. *)

From Stdlib Require Import String Ascii ZArith List DecimalString Lia.
From Stdlib Require Import Floats.SpecFloat.
From Stdlib Require DecimalZ.
From stdpp Require Import gmap strings list.

(** ** Python values *)

(** Modelled from the spec: the class [Parameter] of the module
    [epicsdbbuilder.parameter], which is imported by [const_array.py] but
    is not among the sources at hand.  The specification gives it a name
    and a description; [examples/test.py] constructs it as
    [Parameter('P', 'A parameter')]. *)
Record Parameter_ : Type := mkParameter {
  param_name : string;
  param_description : string
}.

(** [decimal.Decimal] of the Python library: a sign, a coefficient and an
    exponent, or one of the special values. *)
Inductive Decimal : Type :=
| DecFinite (sign : bool) (coefficient : N) (exponent : Z)
| DecInfinity (sign : bool)
| DecNaN (sign : bool) (signalling : bool).

(** The classes [_sanitize] and [_format_constant] test against, and the
    class of any other object. *)
Inductive pyclass : Type :=
| cls_Parameter
| cls_str
| cls_int
| cls_float
| cls_bool
| cls_Decimal
| cls_other (qualname : string).

(** The objects an iterable handed to [ConstArray] may yield.  A Python
    [float] is an IEEE 754 binary64 number; [PyObject] stands for an
    instance of any class other than the six named ones ([None], a list,
    a complex number, ...). *)
Inductive pyobj : Type :=
| PyParameter (p : Parameter_)
| PyStr (s : string)
| PyInt (n : Z)
| PyFloat (x : spec_float)
| PyBool (b : bool)
| PyDecimal (d : Decimal)
| PyObject (qualname : string).

#[global] Instance pyclass_eq_dec : EqDecision pyclass.
Proof. solve_decision. Defined.

(** [type(value)] *)
Definition type_ (value : pyobj) : pyclass :=
  match value with
  | PyParameter _ => cls_Parameter
  | PyStr _ => cls_str
  | PyInt _ => cls_int
  | PyFloat _ => cls_float
  | PyBool _ => cls_bool
  | PyDecimal _ => cls_Decimal
  | PyObject q => cls_other q
  end.

(** [issubclass(c, d)]: every class is a subclass of itself, and [bool]
    is a subclass of [int]. *)
Definition issubclass (c d : pyclass) : bool :=
  match c, d with
  | cls_bool, cls_int => true
  | _, _ => bool_decide (c = d)
  end.

(** [isinstance(value, cls)] *)
Definition isinstance (value : pyobj) (cls : pyclass) : bool :=
  issubclass (type_ value) cls.

(** [isinstance(value, (c1, ..., cn))] with a tuple of classes. *)
Definition isinstance_any (value : pyobj) (classes : list pyclass) : bool :=
  existsb (isinstance value) classes.

(** ** Text helpers *)

(** The double quote character, as a one-character string. *)
Definition dquote : string := String (ascii_of_nat 34) EmptyString.

(** [str(n)] for a Python [int]. *)
Definition int_str (n : Z) : string := NilZero.string_of_int (Z.to_int n).

(** An index as an f-string prints it. *)
Definition index_str (index : nat) : string :=
  NilZero.string_of_uint (Nat.to_uint index).

(** [repr] of a class object, which is what [{type(value)}] prints. *)
Definition class_repr (c : pyclass) : string :=
  let quoted q := "<class '" +:+ q +:+ "'>" in
  match c with
  | cls_Parameter => quoted "epicsdbbuilder.parameter.Parameter"
  | cls_str => quoted "str"
  | cls_int => quoted "int"
  | cls_float => quoted "float"
  | cls_bool => quoted "bool"
  | cls_Decimal => quoted "decimal.Decimal"
  | cls_other q => quoted q
  end.

(** ** Assertions *)

(** The four [assert] statements of [_sanitize].  Each constructor keeps
    what the message of the assertion interpolates: the index of the
    offending element and its class.  A failed [assert] raises Python's
    [AssertionError]; this is the failure the specification calls a
    validation error. *)
Inductive AssertionError : Type :=
| Empty_iterable
| Unexpected_element (index : nat) (cls : pyclass)
| Mix_strings (index : nat) (cls : pyclass)
| Mix_numbers (index : nat) (cls : pyclass).

(** The message carried by the [AssertionError]. *)
Definition message (e : AssertionError) : string :=
  match e with
  | Empty_iterable => "ConstArray: Empty iterable is not allowed."
  | Unexpected_element index cls =>
      "ConstArray: expects a string or parameter as element"
      +:+ " but an element at the index " +:+ index_str index
      +:+ " is " +:+ class_repr cls +:+ "."
  | Mix_strings index cls =>
      "ConstArray: cannot mix strings"
      +:+ " with an element at index " +:+ index_str index
      +:+ " which is " +:+ class_repr cls +:+ "."
  | Mix_numbers index cls =>
      "ConstArray: cannot mix numbers"
      +:+ " with an element at index " +:+ index_str index
      +:+ " which is " +:+ class_repr cls +:+ "."
  end.

(** The index an error reports, when it reports one. *)
Definition error_index (e : AssertionError) : option nat :=
  match e with
  | Empty_iterable => None
  | Unexpected_element index _ | Mix_strings index _ | Mix_numbers index _ =>
      Some index
  end.

(** The result of running a piece of code that may fail an assertion. *)
Inductive outcome (A : Type) : Type :=
| Return (a : A)
| Raise (e : AssertionError).
Arguments Return {A} a.
Arguments Raise {A} e.

#[global] Instance outcome_ret : MRet outcome := @Return.
#[global] Instance outcome_bind : MBind outcome := fun A B f m =>
  match m with
  | Return a => f a
  | Raise e => Raise e
  end.

(** [assert cond, msg] *)
Definition assert_ (cond : bool) (e : AssertionError) : outcome unit :=
  if cond then Return tt else Raise e.

(** ** ConstArray *)

(** The object: its only attribute is the name-mangled [__value]. *)
Record ConstArray : Type := mkConstArray {
  _ConstArray__value : list pyobj
}.

(** [valid_types = (Parameter, str, int, float, bool, Decimal)] *)
Definition valid_types : list pyclass :=
  [cls_Parameter; cls_str; cls_int; cls_float; cls_bool; cls_Decimal].

(** The body of [for index, value in enumerate(value_list)], with the
    loop variables [numbers] and [strings] threaded through.  The flags
    reached at the end of the loop are returned. *)
Fixpoint sanitize_loop (index : nat) (numbers strings : bool)
    (value_list : list pyobj) : outcome (bool * bool) :=
  match value_list with
  | [] => Return (numbers, strings)
  | value :: rest =>
      assert_ (isinstance_any value valid_types)
              (Unexpected_element index (type_ value));;
      if isinstance_any value [cls_Parameter; cls_str] then
        assert_ (negb numbers) (Mix_strings index (type_ value));;
        sanitize_loop (S index) numbers true rest
      else
        assert_ (negb strings) (Mix_numbers index (type_ value));;
        sanitize_loop (S index) true strings rest
  end.

(** [ConstArray._sanitize]; [raw_value] is the sequence of objects the
    iterable yields, and [list(raw_value)] collects exactly them. *)
Definition _sanitize (raw_value : list pyobj) : outcome (list pyobj) :=
  let value_list := raw_value in
  assert_ (0 <? length value_list) Empty_iterable;;
  sanitize_loop 0 false false value_list;;
  Return value_list.

(** [ConstArray.__init__] *)
Definition __init__ (value : list pyobj) : outcome ConstArray :=
  v ← _sanitize value;
  Return (mkConstArray v).

(** *** Rendering *)

(** What [const_array.py] calls without defining it: [quote_string] of the
    module [recordbase], the method [__str__] of [Parameter], and the
    built-in [str] and [repr] of the Python library on floats, decimals
    and other objects.  The development is parametric in them. *)
Class Collaborators : Type := {
  (** [recordbase.quote_string] *)
  quote_string : string -> string;
  (** [Parameter.__str__] *)
  Parameter_str : Parameter_ -> string;
  (** [float.__str__] *)
  float_str : spec_float -> string;
  (** [Decimal.__str__] *)
  Decimal_str : Decimal -> string;
  (** [__str__] of an instance of another class *)
  object_str : string -> string;
  (** the built-in [repr] *)
  repr_ : pyobj -> string
}.

(** The characters of a [str] instance. *)
Definition str_value (value : pyobj) : string :=
  match value with
  | PyStr s => s
  | _ => EmptyString
  end.

(** The truth value of a [bool] instance. *)
Definition bool_value (value : pyobj) : bool :=
  match value with
  | PyBool b => b
  | _ => false
  end.

Section Rendering.
Context `{Collaborators}.

(** The built-in [str(value)]. *)
Definition str_ (value : pyobj) : string :=
  match value with
  | PyParameter p => Parameter_str p
  | PyStr s => s
  | PyInt n => int_str n
  | PyFloat x => float_str x
  | PyBool b => if b then "True" else "False"
  | PyDecimal d => Decimal_str d
  | PyObject q => object_str q
  end.

(** [ConstArray._format_constant]: four tests in the order of the
    source, so a [bool], which is also an [int], is caught by the third
    one before [str] would print it as [True] or [False]. *)
Definition _format_constant (value : pyobj) : string :=
  if isinstance value cls_Parameter then
    dquote +:+ str_ value +:+ dquote
  else if isinstance value cls_str then
    quote_string (str_value value)
  else if isinstance value cls_bool then
    (if bool_value value then "1" else "0")
  else
    str_ value.

(** A method of [ConstArray]: it reads and may update [self], and
    returns a result or raises. *)
Definition method (A : Type) : Type := ConstArray -> outcome (A * ConstArray).

(** [ConstArray.Validate]: the body is [pass]. *)
Definition Validate (record fieldname : pyobj) : method unit :=
  fun self => Return (tt, self).

(** [ConstArray.FormatDb] *)
Definition FormatDb (record fieldname : pyobj) : method string :=
  fun self =>
    let formatted := map _format_constant (_ConstArray__value self) in
    Return ("[" +:+ String.concat "," formatted +:+ "]", self).

(** [repr] of a list: the [repr] of its items between brackets. *)
Definition list_repr (l : list pyobj) : string :=
  "[" +:+ String.concat ", " (map repr_ l) +:+ "]".

(** [ConstArray.__repr__] *)
Definition __repr__ : method string :=
  fun self =>
    Return ("<ConstArray " +:+ list_repr (_ConstArray__value self) +:+ ">",
            self).

(** A call of one of the three methods a constructed object offers. *)
Inductive call : Type :=
| call_Validate (record fieldname : pyobj)
| call_FormatDb (record fieldname : pyobj)
| call_repr.

(** What a call returns: [None] for [Validate], a string otherwise. *)
Definition run_call (c : call) : method (option string) :=
  fun self =>
    match c with
    | call_Validate record fieldname =>
        '(_, self') ← Validate record fieldname self;
        Return (None, self')
    | call_FormatDb record fieldname =>
        '(s, self') ← FormatDb record fieldname self;
        Return (Some s, self')
    | call_repr =>
        '(s, self') ← __repr__ self;
        Return (Some s, self')
    end.

(** A sequence of calls on one object, in order; the results are
    collected and the object is threaded through. *)
Fixpoint run_calls (cs : list call) : method (list (option string)) :=
  fun self =>
    match cs with
    | [] => Return ([], self)
    | c :: rest =>
        '(r, self') ← run_call c self;
        '(rs, self'') ← run_calls rest self';
        Return (r :: rs, self'')
    end.

(** [Validate] called once per pair of arguments, in order. *)
Fixpoint Validate_all (args : list (pyobj * pyobj)) : method unit :=
  fun self =>
    match args with
    | [] => Return (tt, self)
    | (record, fieldname) :: rest =>
        '(_, self') ← Validate record fieldname self;
        Validate_all rest self'
    end.

End Rendering.

(** ** The constructor over a store of list objects

    In Python the argument of [ConstArray] is a reference to a list that
    the caller keeps and may change later, and [list(raw_value)] creates a
    new list object.  Here list objects live in a store and are named by
    locations, so that the two objects can be told apart. *)
Module Heap.

Abbreviation loc := positive (only parsing).
Abbreviation store := (gmap positive (list pyobj)) (only parsing).

(** The object: [__value] holds a reference to a list object. *)
Record ConstArray : Type := mkConstArray {
  _ConstArray__value : loc
}.

(** A piece of code that reads and updates the store; [None] stands for
    a use of a reference that names no object of the store. *)
Definition cmd (A : Type) : Type := store -> option (A * store).

(** [list(raw_value)]: a new list object with the items of the list
    [raw_value] refers to. *)
Definition list_ (raw_value : loc) : cmd loc :=
  fun σ =>
    items ← σ !! raw_value;
    let l := fresh (dom σ) in
    Some (l, <[l := items]> σ).

(** [ConstArray._sanitize] *)
Definition _sanitize (raw_value : loc) : cmd (outcome loc) :=
  fun σ =>
    '(value_list, σ1) ← list_ raw_value σ;
    items ← σ1 !! value_list;
    Some (assert_ (0 <? length items) Empty_iterable;;
          sanitize_loop 0 false false items;;
          Return value_list,
          σ1).

(** [ConstArray.__init__] *)
Definition __init__ (value : loc) : cmd (outcome ConstArray) :=
  fun σ =>
    '(r, σ1) ← _sanitize value σ;
    Some (v ← r; Return (mkConstArray v), σ1).

(** [ConstArray.FormatDb] *)
Definition FormatDb `{Collaborators} (self : ConstArray)
    (record fieldname : pyobj) : cmd string :=
  fun σ =>
    items ← σ !! _ConstArray__value self;
    let formatted := map _format_constant items in
    Some ("[" +:+ String.concat "," formatted +:+ "]", σ).

(** Any change in place of the list object at [l]: [append], [clear],
    assignment to an item or a slice, [sort], ...; [f] maps the items
    before the change to the items after it. *)
Definition mutate (l : loc) (f : list pyobj -> list pyobj) (σ : store) : store :=
  alter f l σ.

End Heap.

(** ** An instance to run the model on

    The theorems above hold for every choice of the collaborators.  The
    instance below serves to evaluate the model on examples. *)
Module Sample.

Definition backslash : string := String (ascii_of_nat 92) EmptyString.

Definition hex_digit (n : nat) : string :=
  String (ascii_of_nat (if n <? 10 then 48 + n else 87 + n)) EmptyString.

(** Modelled from the spec: the escaping done by [quote_string] of the
    module [recordbase], which is not among the sources at hand.  The
    specification asks that double quotes, backslashes, control
    characters and bytes beyond the printable set be escaped, without
    giving the spelling of an escape; here a backslash is put before a
    quote or a backslash, and any other escaped byte is written as a
    backslash, the letter x and two hexadecimal digits. *)
Definition quote_char (ch : ascii) : string :=
  let code := nat_of_ascii ch in
  if (code =? 34) || (code =? 92) then backslash +:+ String ch EmptyString
  else if (code <? 32) || (126 <? code) then
    backslash +:+ "x" +:+ hex_digit (code / 16) +:+ hex_digit (code mod 16)
  else String ch EmptyString.

Fixpoint escape (s : string) : string :=
  match s with
  | EmptyString => EmptyString
  | String ch rest => quote_char ch +:+ escape rest
  end.

(** Modelled from the spec: [quote_string] of the module [recordbase],
    which is not among the sources at hand: the string, escaped, as one
    quoted token. *)
Definition quote_string (s : string) : string :=
  dquote +:+ escape s +:+ dquote.

(** Modelled from the spec: [Parameter.__str__], which is not among the
    sources at hand: a macro reference wrapping the name of the
    parameter. *)
Definition Parameter_str (p : Parameter_) : string :=
  "$(" +:+ param_name p +:+ ")".

Definition sign_str (s : bool) : string := if s then "-" else EmptyString.

(** The special values print as in Python.  The shortest digits that
    Python prints for a finite float are not reproduced: a finite float
    is written exactly, as an integer times a power of two. *)
Definition float_str (x : spec_float) : string :=
  match x with
  | S754_zero s => sign_str s +:+ "0.0"
  | S754_infinity s => sign_str s +:+ "inf"
  | S754_nan => "nan"
  | S754_finite s m e =>
      sign_str s +:+ int_str (Z.pos m) +:+ "*2**" +:+ int_str e
  end.

(** A decimal with exponent 0 prints as its digits; the placement of the
    decimal point for other exponents is not reproduced. *)
Definition Decimal_str (d : Decimal) : string :=
  match d with
  | DecFinite s c 0%Z => sign_str s +:+ int_str (Z.of_N c)
  | DecFinite s c e => sign_str s +:+ int_str (Z.of_N c) +:+ "E" +:+ int_str e
  | DecInfinity s => sign_str s +:+ "Infinity"
  | DecNaN s signalling => sign_str s +:+ (if signalling then "sNaN" else "NaN")
  end.

Definition object_str (qualname : string) : string :=
  "<" +:+ qualname +:+ " object>".

(** [repr] of the values of the kinds printed above; the escapes that
    Python writes inside the [repr] of a string are not reproduced. *)
Definition repr (value : pyobj) : string :=
  match value with
  | PyParameter p => Parameter_str p
  | PyStr s => "'" +:+ s +:+ "'"
  | PyInt n => int_str n
  | PyFloat x => float_str x
  | PyBool b => if b then "True" else "False"
  | PyDecimal d => "Decimal('" +:+ Decimal_str d +:+ "')"
  | PyObject q => object_str q
  end.

Definition collaborators : Collaborators :=
  Build_Collaborators
    quote_string Parameter_str float_str Decimal_str object_str repr.

End Sample.

(** ** The vocabulary of the specification *)

(** The two categories of elements the specification speaks of. *)
Inductive category : Type := StringLike | NumericLike.

#[global] Instance category_eq_dec : EqDecision category.
Proof. solve_decision. Defined.

Definition opposite (c : category) : category :=
  match c with
  | StringLike => NumericLike
  | NumericLike => StringLike
  end.

(** Strings and Parameters are string-like; integers, floats, booleans
    and decimals are numeric-like; nothing else has a category. *)
Definition category_of (value : pyobj) : option category :=
  match value with
  | PyParameter _ | PyStr _ => Some StringLike
  | PyInt _ | PyFloat _ | PyBool _ | PyDecimal _ => Some NumericLike
  | PyObject _ => None
  end.

Definition string_like (value : pyobj) : Prop :=
  category_of value = Some StringLike.

Definition numeric_like (value : pyobj) : Prop :=
  category_of value = Some NumericLike.

(** One of Parameter, string, integer, float, boolean, decimal. *)
Definition valid_kind (value : pyobj) : Prop :=
  is_Some (category_of value).

(** The first element whose category contradicts the category
    established by the first element, with its index. *)
Definition first_contradiction (vs : list pyobj) : option (nat * pyobj) :=
  first ← head vs;
  c0 ← category_of first;
  list_find (fun v => category_of v = Some (opposite c0)) vs.

(** The assertion that fails on an element whose category contradicts
    the one seen before it. *)
Definition mix_error (index : nat) (value : pyobj) : AssertionError :=
  match category_of value with
  | Some StringLike => Mix_strings index (type_ value)
  | _ => Mix_numbers index (type_ value)
  end.

(** The sentence of the specification on mixed sequences, read on one
    sequence: construction fails and the index reported is that of the
    first contradicting element. *)
Definition reports_first_contradiction (vs : list pyobj) : Prop :=
  exists e j x,
    __init__ vs = Raise e /\
    first_contradiction vs = Some (j, x) /\
    error_index e = Some j.

(** The sentence of the specification on elements of no valid kind, read
    on one sequence and one of its indices: construction fails and the
    error reports that index. *)
Definition reports_invalid_element (vs : list pyobj) (i : nat) : Prop :=
  exists e, __init__ vs = Raise e /\ error_index e = Some i.

(** The rendering of an element by its kind, in the words of the
    specification. *)
Definition render_by_kind `{Collaborators} (value : pyobj) : string :=
  match value with
  | PyParameter p => dquote +:+ Parameter_str p +:+ dquote
  | PyStr s => quote_string s
  | PyBool true => "1"
  | PyBool false => "0"
  | PyInt n => int_str n
  | PyFloat x => float_str x
  | PyDecimal d => Decimal_str d
  | PyObject q => object_str q
  end.

(** Comma-joined, bracket-delimited, no blank anywhere around. *)
Definition bracketed (rendered : list string) : string :=
  "[" +:+ String.concat "," rendered +:+ "]".

(** A construction that ends normally. *)
Definition accepted (raw : list pyobj) : Prop :=
  exists self, __init__ raw = Return self.

(** A boolean read as the integer it equals: [True] as 1, [False] as 0. *)
Definition bool_as_int (value : pyobj) : pyobj :=
  match value with
  | PyBool b => PyInt (if b then 1 else 0)
  | _ => value
  end.

(** What [FormatDb] puts between the brackets. *)
Definition joined `{Collaborators} (items : list pyobj) : string :=
  String.concat "," (map _format_constant items).

(** The fields of a line of text, cut at each comma. *)
Fixpoint fields (s : string) : list string :=
  match s with
  | EmptyString => [EmptyString]
  | String c rest =>
      if Ascii.eqb c ","%char then EmptyString :: fields rest
      else match fields rest with
           | f :: fs => String c f :: fs
           | [] => [String c EmptyString]
           end
  end.

(** No comma in the text. *)
Fixpoint comma_free (s : string) : bool :=
  match s with
  | EmptyString => true
  | String c rest => negb (Ascii.eqb c ","%char) && comma_free rest
  end.

(** The flags after a run over a homogeneous list. *)
Definition flag_after (vs : list pyobj) (before : bool) : bool :=
  match vs with
  | [] => before
  | _ :: _ => true
  end.

(** ** Facts on classes and categories *)

Lemma isinstance_valid_types value :
  isinstance_any value valid_types = true <-> valid_kind value.
Proof.
  unfold valid_kind. destruct value; cbn; split; intros Hv;
    try reflexivity; try (eexists; reflexivity);
    try discriminate; try (destruct Hv; discriminate).
Qed.

Lemma isinstance_string_classes value :
  isinstance_any value [cls_Parameter; cls_str] = true <-> string_like value.
Proof.
  unfold string_like. destruct value; cbn; split; intros Hv;
    try reflexivity; try discriminate.
Qed.

Lemma category_trichotomy value :
  string_like value \/ numeric_like value \/ ~ valid_kind value.
Proof.
  unfold string_like, numeric_like, valid_kind.
  destruct (category_of value) as [[]|]; [auto..|].
  right; right. intros [c Hc]. discriminate.
Qed.

Lemma string_like_valid value : string_like value -> valid_kind value.
Proof. unfold string_like, valid_kind. intros ->. eauto. Qed.

Lemma numeric_like_valid value : numeric_like value -> valid_kind value.
Proof. unfold numeric_like, valid_kind. intros ->. eauto. Qed.

Lemma string_like_not_numeric value :
  string_like value -> numeric_like value -> False.
Proof. unfold string_like, numeric_like. congruence. Qed.

Lemma numeric_like_not_string_classes value :
  numeric_like value -> isinstance_any value [cls_Parameter; cls_str] = false.
Proof.
  intros Hn. apply not_true_is_false. intros Hs%isinstance_string_classes.
  exact (string_like_not_numeric _ Hs Hn).
Qed.

(** ** One round of the loop of [_sanitize] *)

Lemma sanitize_loop_invalid_head index numbers strings value rest :
  ~ valid_kind value ->
  sanitize_loop index numbers strings (value :: rest)
  = Raise (Unexpected_element index (type_ value)).
Proof.
  intros Hv. cbn [sanitize_loop].
  destruct (isinstance_any value valid_types) eqn:E; [|reflexivity].
  apply isinstance_valid_types in E. contradiction.
Qed.

Lemma sanitize_loop_string_head index numbers strings value rest :
  string_like value ->
  sanitize_loop index numbers strings (value :: rest)
  = if numbers then Raise (Mix_strings index (type_ value))
    else sanitize_loop (S index) numbers true rest.
Proof.
  intros Hs. cbn [sanitize_loop].
  pose proof (string_like_valid _ Hs) as Hv.
  apply isinstance_valid_types in Hv. rewrite Hv.
  apply isinstance_string_classes in Hs. rewrite Hs.
  destruct numbers; reflexivity.
Qed.

Lemma sanitize_loop_numeric_head index numbers strings value rest :
  numeric_like value ->
  sanitize_loop index numbers strings (value :: rest)
  = if strings then Raise (Mix_numbers index (type_ value))
    else sanitize_loop (S index) true strings rest.
Proof.
  intros Hn. cbn [sanitize_loop].
  pose proof (numeric_like_valid _ Hn) as Hv.
  apply isinstance_valid_types in Hv. rewrite Hv.
  rewrite (numeric_like_not_string_classes _ Hn).
  destruct strings; reflexivity.
Qed.

(** Splits on the kind of the head of the list the loop runs on and
    rewrites the loop by one round. *)
Ltac loop_round value :=
  let Hk := fresh "Hkind" in
  destruct (category_trichotomy value) as [Hk|[Hk|Hk]];
  [ rewrite !(sanitize_loop_string_head _ _ _ _ _ Hk)
  | rewrite !(sanitize_loop_numeric_head _ _ _ _ _ Hk)
  | rewrite !(sanitize_loop_invalid_head _ _ _ _ _ Hk) ].

(** ** The loop on whole lists *)

Lemma sanitize_loop_string_like index strings vs :
  Forall string_like vs ->
  sanitize_loop index false strings vs = Return (false, flag_after vs strings).
Proof.
  intros Hall. revert index strings.
  induction Hall as [|v rest Hv _ IH]; intros index strings; [reflexivity|].
  rewrite (sanitize_loop_string_head _ _ _ _ _ Hv), IH.
  destruct rest; reflexivity.
Qed.

Lemma sanitize_loop_numeric_like index numbers vs :
  Forall numeric_like vs ->
  sanitize_loop index numbers false vs = Return (flag_after vs numbers, false).
Proof.
  intros Hall. revert index numbers.
  induction Hall as [|v rest Hv _ IH]; intros index numbers; [reflexivity|].
  rewrite (sanitize_loop_numeric_head _ _ _ _ _ Hv), IH.
  destruct rest; reflexivity.
Qed.

(** The loop over a concatenation resumes, after the first part, with
    the flags it reached and the index advanced by its length. *)
Lemma sanitize_loop_app index numbers strings l1 l2 :
  sanitize_loop index numbers strings (l1 ++ l2)
  = '(numbers', strings') ← sanitize_loop index numbers strings l1;
    sanitize_loop (index + length l1) numbers' strings' l2.
Proof.
  revert index numbers strings.
  induction l1 as [|v l1 IH]; intros index numbers strings.
  - cbn. f_equal. lia.
  - rewrite <- app_comm_cons.
    replace (index + length (v :: l1)) with (S index + length l1) by (cbn; lia).
    loop_round v.
    + destruct numbers; [reflexivity|]. apply IH.
    + destruct strings; [reflexivity|]. apply IH.
    + reflexivity.
Qed.

(** Once a string has been seen, the loop ends normally only on
    string-like elements; likewise for numbers. *)
Lemma sanitize_loop_Return_after_string index numbers vs r :
  sanitize_loop index numbers true vs = Return r -> Forall string_like vs.
Proof.
  revert index numbers.
  induction vs as [|v vs IH]; intros index numbers Hr; [constructor|].
  revert Hr. loop_round v; intros Hr; try discriminate.
  destruct numbers; [discriminate|]. constructor; eauto.
Qed.

Lemma sanitize_loop_Return_after_number index strings vs r :
  sanitize_loop index true strings vs = Return r -> Forall numeric_like vs.
Proof.
  revert index strings.
  induction vs as [|v vs IH]; intros index strings Hr; [constructor|].
  revert Hr. loop_round v; intros Hr; try discriminate.
  destruct strings; [discriminate|]. constructor; eauto.
Qed.

Lemma sanitize_loop_Return_homogeneous index numbers strings vs r :
  sanitize_loop index numbers strings vs = Return r ->
  Forall string_like vs \/ Forall numeric_like vs.
Proof.
  destruct vs as [|v vs]; [intros _; left; constructor|].
  loop_round v; intros Hr; try discriminate.
  - destruct numbers; [discriminate|]. left. constructor; [assumption|].
    eapply sanitize_loop_Return_after_string; eassumption.
  - destruct strings; [discriminate|]. right. constructor; [assumption|].
    eapply sanitize_loop_Return_after_number; eassumption.
Qed.

(** An element of no valid kind stops the loop at its index at the
    latest. *)
Lemma sanitize_loop_invalid index numbers strings vs i v :
  vs !! i = Some v -> ~ valid_kind v ->
  exists e j,
    sanitize_loop index numbers strings vs = Raise e /\
    error_index e = Some j /\ index <= j <= index + i.
Proof.
  revert index numbers strings i.
  induction vs as [|w vs IH]; intros index numbers strings i Hi Hv;
    [discriminate|].
  destruct i as [|i]; cbn in Hi.
  - injection Hi as ->. rewrite (sanitize_loop_invalid_head _ _ _ _ _ Hv).
    eexists _, index. repeat split; cbn; lia.
  - assert (Hstop : exists e j,
        Raise (A := bool * bool) (Mix_strings index (type_ w)) = Raise e /\
        error_index e = Some j /\ index <= j <= index + S i).
    { eexists _, index. repeat split; cbn; lia. }
    assert (Hstop' : exists e j,
        Raise (A := bool * bool) (Mix_numbers index (type_ w)) = Raise e /\
        error_index e = Some j /\ index <= j <= index + S i).
    { eexists _, index. repeat split; cbn; lia. }
    assert (Hrest : forall n s, exists e j,
        sanitize_loop (S index) n s vs = Raise e /\
        error_index e = Some j /\ index <= j <= index + S i).
    { intros n s. destruct (IH (S index) n s i Hi Hv) as (e & j & ? & ? & ?).
      exists e, j. repeat split; [assumption..|lia|lia]. }
    loop_round w.
    + destruct numbers; [exact Hstop|apply Hrest].
    + destruct strings; [exact Hstop'|apply Hrest].
    + eexists _, index. repeat split; cbn; lia.
Qed.

(** ** The constructor in terms of the loop *)

Lemma init_nonempty v vs :
  __init__ (v :: vs)
  = (sanitize_loop 0 false false (v :: vs);;
     Return (mkConstArray (v :: vs))).
Proof.
  unfold __init__, _sanitize. cbn [length Nat.ltb Nat.leb assert_ mbind outcome_bind].
  destruct (sanitize_loop 0 false false (v :: vs)); reflexivity.
Qed.

Lemma init_Return raw self :
  __init__ raw = Return self ->
  self = mkConstArray raw /\ raw <> [] /\
  exists flags, sanitize_loop 0 false false raw = Return flags.
Proof.
  destruct raw as [|v vs]; [discriminate|].
  rewrite init_nonempty.
  destruct (sanitize_loop 0 false false (v :: vs)) as [flags|e] eqn:E;
    [|discriminate].
  cbn. intros [= <-]. repeat split; [discriminate|eauto].
Qed.

Lemma init_Raise raw e :
  raw <> [] -> sanitize_loop 0 false false raw = Raise e -> __init__ raw = Raise e.
Proof.
  destruct raw as [|v vs]; [contradiction|]. intros _ Hloop.
  rewrite init_nonempty, Hloop. reflexivity.
Qed.

Lemma init_of_loop_Return raw flags :
  raw <> [] -> sanitize_loop 0 false false raw = Return flags ->
  __init__ raw = Return (mkConstArray raw).
Proof.
  destruct raw as [|v vs]; [contradiction|]. intros _ Hloop.
  rewrite init_nonempty, Hloop. reflexivity.
Qed.

(** What every constructed object satisfies. *)
Lemma init_invariant raw self :
  __init__ raw = Return self ->
  _ConstArray__value self = raw /\
  1 <= length (_ConstArray__value self) /\
  (Forall string_like (_ConstArray__value self) \/
   Forall numeric_like (_ConstArray__value self)).
Proof.
  intros (-> & Hne & flags & Hloop)%init_Return. cbn. repeat split.
  - destruct raw; [contradiction|cbn; lia].
  - eapply sanitize_loop_Return_homogeneous; eassumption.
Qed.

Lemma homogeneous_not_mixed (vs : list pyobj) :
  Exists string_like vs -> Exists numeric_like vs ->
  Forall string_like vs \/ Forall numeric_like vs -> False.
Proof.
  intros (s & Hs & Hs')%Exists_exists (n & Hn & Hn')%Exists_exists [Hall|Hall];
    rewrite Forall_forall in Hall.
  - exact (string_like_not_numeric n (Hall n Hn) Hn').
  - exact (string_like_not_numeric s Hs' (Hall s Hs)).
Qed.

(** The elements before the first contradiction, when they are all of a
    valid kind, share the category of the first element, and there is at
    least one of them. *)
Lemma first_contradiction_prefix vs j x :
  first_contradiction vs = Some (j, x) ->
  Forall valid_kind (take j vs) ->
  exists c0,
    vs = take j vs ++ x :: drop (S j) vs /\
    length (take j vs) = j /\ take j vs <> [] /\
    Forall (fun y => category_of y = Some c0) (take j vs) /\
    category_of x = Some (opposite c0).
Proof.
  unfold first_contradiction. destruct vs as [|v0 vs]; [discriminate|].
  cbn [head mbind option_bind].
  destruct (category_of v0) as [c0|] eqn:Ec0; [|discriminate].
  cbn [mbind option_bind].
  intros (Hx & Hcx & Hbefore)%list_find_Some Hvalid.
  exists c0. repeat split.
  - symmetry. apply take_drop_middle. exact Hx.
  - apply length_take_le. apply lookup_lt_Some in Hx. lia.
  - destruct j as [|j]; [|discriminate].
    cbn in Hx. injection Hx as <-. rewrite Ec0 in Hcx.
    destruct c0; discriminate.
  - rewrite Forall_forall in Hvalid. apply Forall_forall. intros y Hy.
    destruct (Hvalid y Hy) as [c Hc].
    apply list_elem_of_lookup in Hy as [i Hi].
    pose proof (lookup_lt_Some _ _ _ Hi) as Hlt. rewrite length_take in Hlt.
    rewrite lookup_take_lt in Hi by lia.
    specialize (Hbefore i y Hi ltac:(lia)).
    rewrite Hc in *. destruct c, c0; try reflexivity; contradiction Hbefore; reflexivity.
  - exact Hcx.
Qed.

(** ** Construction: acceptance *)

(** A single element of a valid kind is accepted. *)
Lemma single_element_accepted v :
  valid_kind v -> __init__ [v] = Return (mkConstArray [v]).
Proof.
  intros Hv. rewrite init_nonempty.
  destruct (category_trichotomy v) as [Hk|[Hk|Hk]]; [| |contradiction].
  - rewrite (sanitize_loop_string_like 0 false [v]); [reflexivity|].
    constructor; [assumption|constructor].
  - rewrite (sanitize_loop_numeric_like 0 false [v]); [reflexivity|].
    constructor; [assumption|constructor].
Qed.

(** A sequence of Parameters only is accepted, and the loop leaves it
    classified as strings. *)
Lemma parameters_only_accepted (ps : list Parameter_) :
  ps <> [] ->
  __init__ (PyParameter <$> ps) = Return (mkConstArray (PyParameter <$> ps)) /\
  sanitize_loop 0 false false (PyParameter <$> ps) = Return (false, true).
Proof.
  intros Hne.
  assert (Hall : Forall string_like (PyParameter <$> ps)).
  { apply Forall_fmap, Forall_true. intros p. reflexivity. }
  pose proof (sanitize_loop_string_like 0 false _ Hall) as Hloop.
  destruct ps as [|p ps]; [contradiction|]. split; [|exact Hloop].
  eapply init_of_loop_Return; [discriminate|exact Hloop].
Qed.

(** C4: for every non-empty sequence whose elements are all string-like
    (strings, Parameters) or all numeric-like (integers, floats,
    booleans, decimals), construction succeeds and stores the sequence;
    the loop ends with the flag of that category set and the other one
    clear.  Single-element sequences and sequences of Parameters are
    instances ([single_element_accepted], [parameters_only_accepted]). *)
Theorem homogeneous_accepted (raw : list pyobj) :
  raw <> [] ->
  Forall string_like raw \/ Forall numeric_like raw ->
  __init__ raw = Return (mkConstArray raw) /\
  (Forall string_like raw ->
   sanitize_loop 0 false false raw = Return (false, true)) /\
  (Forall numeric_like raw ->
   sanitize_loop 0 false false raw = Return (true, false)).
Proof.
  intros Hne Hall.
  assert (Hs : Forall string_like raw ->
               sanitize_loop 0 false false raw = Return (false, true)).
  { intros H. rewrite (sanitize_loop_string_like 0 false raw H).
    destruct raw; [contradiction|reflexivity]. }
  assert (Hn : Forall numeric_like raw ->
               sanitize_loop 0 false false raw = Return (true, false)).
  { intros H. rewrite (sanitize_loop_numeric_like 0 false raw H).
    destruct raw; [contradiction|reflexivity]. }
  split; [|split; assumption].
  destruct Hall as [H|H]; eapply init_of_loop_Return; eauto.
Qed.

Lemma homogeneous_accepted_witness :
  __init__ [PyParameter (mkParameter "P" "A parameter"); PyStr "B"]
  = Return (mkConstArray
              [PyParameter (mkParameter "P" "A parameter"); PyStr "B"]).
Proof.
  refine (proj1 (homogeneous_accepted _ _ _)).
  - discriminate.
  - left. repeat constructor.
Defined.

(** ** Construction: rejection *)

(** C3: an empty iterable is rejected by the constructor itself, with the
    assertion on the length; no object comes into being on which
    [Validate] or [FormatDb] could be called. *)
Theorem empty_rejected (raw : list pyobj) :
  length raw = 0 ->
  __init__ raw = Raise Empty_iterable /\
  (forall self, __init__ raw <> Return self) /\
  message Empty_iterable = "ConstArray: Empty iterable is not allowed.".
Proof.
  intros Hlen. destruct raw; [|discriminate].
  repeat split. intros self. discriminate.
Qed.

Lemma empty_rejected_witness : __init__ [] = Raise Empty_iterable.
Proof. exact (proj1 (empty_rejected [] eq_refl)). Defined.

(** C2, as amended: every sequence with at least one string-like and at
    least one numeric-like element is rejected; and when no element of an
    invalid kind stands before the first element whose category
    contradicts that of the first element, the assertion that fails is
    the one on mixing, at the index of that element. *)
Theorem mixed_rejected (raw : list pyobj) :
  Exists string_like raw -> Exists numeric_like raw ->
  (exists e, __init__ raw = Raise e) /\
  (forall j x,
     first_contradiction raw = Some (j, x) ->
     Forall valid_kind (take j raw) ->
     __init__ raw = Raise (mix_error j x) /\
     error_index (mix_error j x) = Some j).
Proof.
  intros Hs Hn. split.
  - destruct (__init__ raw) as [self|e] eqn:E; [|eauto].
    apply init_invariant in E as (Hraw & _ & Hhom). rewrite Hraw in Hhom.
    destruct (homogeneous_not_mixed raw Hs Hn Hhom).
  - intros j x Hfirst Hvalid.
    destruct (first_contradiction_prefix _ _ _ Hfirst Hvalid)
      as (c0 & Hsplit & Hlen & Hne & Hpre & Hx).
    split; [|unfold mix_error; rewrite Hx; destruct c0; reflexivity].
    apply init_Raise; [intros ->; destruct j; discriminate|].
    rewrite Hsplit, sanitize_loop_app, Hlen.
    unfold mix_error. rewrite Hx. destruct c0; cbn [opposite].
    + rewrite (sanitize_loop_string_like 0 false (take j raw) Hpre).
      destruct (take j raw) eqn:Et; [contradiction|].
      cbn [mbind outcome_bind flag_after].
      rewrite (sanitize_loop_numeric_head _ _ _ _ _ Hx). reflexivity.
    + rewrite (sanitize_loop_numeric_like 0 false (take j raw) Hpre).
      destruct (take j raw) eqn:Et; [contradiction|].
      cbn [mbind outcome_bind flag_after].
      rewrite (sanitize_loop_string_head _ _ _ _ _ Hx). reflexivity.
Qed.

Lemma mixed_rejected_witness :
  __init__ [PyStr "A"; PyInt 1] = Raise (Mix_numbers 1 cls_int).
Proof.
  refine (proj1 (proj2 (mixed_rejected [PyStr "A"; PyInt 1] _ _)
                   1 (PyInt 1) eq_refl _)).
  - apply Exists_cons_hd. reflexivity.
  - apply Exists_cons_tl, Exists_cons_hd. reflexivity.
  - repeat constructor. exists StringLike. reflexivity.
Defined.

(** C2, as stated, fails on a string, [None] and a number: the first
    element whose category contradicts the first one is at index 2, and
    the error raised is the one on the kind of the element at index 1. *)
Lemma mixed_index_counterexample :
  let raw := [PyStr "A"; PyObject "NoneType"; PyInt 1] in
  Exists string_like raw /\ Exists numeric_like raw /\
  first_contradiction raw = Some (2, PyInt 1) /\
  __init__ raw = Raise (Unexpected_element 1 (cls_other "NoneType")) /\
  ~ reports_first_contradiction raw.
Proof.
  cbv zeta. repeat split.
  - apply Exists_cons_hd. reflexivity.
  - do 2 apply Exists_cons_tl. apply Exists_cons_hd. reflexivity.
  - intros (e & j & x & Hinit & Hfirst & Hidx).
    vm_compute in Hinit, Hfirst.
    injection Hinit as <-. injection Hfirst as <- <-. discriminate Hidx.
Qed.

(** C5, as amended: every sequence with an element that is none of
    Parameter, string, integer, float, boolean, decimal is rejected, by
    an assertion that reports an index no greater than that of the
    element; and when the elements before it are all string-like or all
    numeric-like, the assertion that fails is the one on the kind of the
    element, and it reports the index and the class of that element. *)
Theorem invalid_rejected (raw : list pyobj) (i : nat) (v : pyobj) :
  raw !! i = Some v -> ~ valid_kind v ->
  (exists e j, __init__ raw = Raise e /\ error_index e = Some j /\ j <= i) /\
  (Forall string_like (take i raw) \/ Forall numeric_like (take i raw) ->
   __init__ raw = Raise (Unexpected_element i (type_ v))).
Proof.
  intros Hi Hv.
  assert (Hne : raw <> []) by (intros ->; discriminate).
  split.
  - destruct (sanitize_loop_invalid 0 false false raw i v Hi Hv)
      as (e & j & Hloop & Hidx & Hj).
    exists e, j. repeat split; [apply init_Raise; assumption|assumption|lia].
  - intros Hpre. apply init_Raise; [assumption|].
    rewrite <- (take_drop_middle raw i v Hi), sanitize_loop_app.
    assert (Hlen : length (take i raw) = i).
    { apply length_take_le. apply lookup_lt_Some in Hi. lia. }
    rewrite Hlen.
    destruct Hpre as [Hpre|Hpre].
    + rewrite (sanitize_loop_string_like 0 false _ Hpre).
      cbn [mbind outcome_bind].
      apply (sanitize_loop_invalid_head _ _ _ _ _ Hv).
    + rewrite (sanitize_loop_numeric_like 0 false _ Hpre).
      cbn [mbind outcome_bind].
      apply (sanitize_loop_invalid_head _ _ _ _ _ Hv).
Qed.

Lemma invalid_rejected_witness :
  __init__ [PyInt 1; PyObject "NoneType"; PyInt 3]
  = Raise (Unexpected_element 1 (cls_other "NoneType")).
Proof.
  refine (proj2 (invalid_rejected
                   [PyInt 1; PyObject "NoneType"; PyInt 3] 1
                   (PyObject "NoneType") eq_refl _) _).
  - intros [c Hc]. discriminate Hc.
  - right. repeat constructor.
Defined.

(** C5, as stated, fails on a string, a number and [None]: the element
    of no valid kind is at index 2, and the error raised is the one on
    mixing, at index 1. *)
Lemma invalid_index_counterexample :
  let raw := [PyStr "A"; PyInt 1; PyObject "NoneType"] in
  raw !! 2 = Some (PyObject "NoneType") /\
  ~ valid_kind (PyObject "NoneType") /\
  __init__ raw = Raise (Mix_numbers 1 cls_int) /\
  ~ reports_invalid_element raw 2.
Proof.
  cbv zeta. split; [reflexivity|]. split; [|split; [reflexivity|]].
  - intros [c Hc]. discriminate Hc.
  - intros (e & Hinit & Hidx). vm_compute in Hinit.
    injection Hinit as <-. discriminate Hidx.
Qed.

(** ** Rendering *)

Section RenderingFacts.
Context `{Collaborators}.

(** The cascade of [isinstance] tests of [_format_constant] picks, for
    every value, the rendering the specification gives for its kind. *)
Lemma _format_constant_by_kind value :
  _format_constant value = render_by_kind value.
Proof. destruct value as [p|s|n|x|[]|d|q]; reflexivity. Qed.

Lemma FormatDb_value record fieldname self :
  FormatDb record fieldname self
  = Return (bracketed (map render_by_kind (_ConstArray__value self)), self).
Proof.
  unfold FormatDb, bracketed.
  rewrite (map_ext _format_constant render_by_kind _format_constant_by_kind).
  reflexivity.
Qed.

(** No call changes the object or raises. *)
Lemma run_call_pure c self : exists r, run_call c self = Return (r, self).
Proof. destruct c; cbn; eauto. Qed.

Lemma run_calls_pure cs self : exists rs, run_calls cs self = Return (rs, self).
Proof.
  induction cs as [|c cs [rs IH]]; [cbn; eauto|].
  destruct (run_call_pure c self) as [r Hr].
  exists (r :: rs). cbn [run_calls]. rewrite Hr. cbn. rewrite IH. reflexivity.
Qed.

(** C1: on every constructed [ConstArray], [FormatDb] returns the
    renderings of the values given to the constructor, each by its kind
    (a Parameter between double quotes, a string through [quote_string],
    a boolean as 1 or 0, any other number through [str]), joined by
    commas and enclosed in brackets, with nothing around; on the integers
    1, 2, 3 it returns [[1,2,3]]. *)
Theorem FormatDb_renders raw self record fieldname :
  __init__ raw = Return self ->
  FormatDb record fieldname self
  = Return (bracketed (map render_by_kind raw), self) /\
  (raw = [PyInt 1; PyInt 2; PyInt 3] ->
   FormatDb record fieldname self = Return ("[1,2,3]", self)).
Proof.
  intros (-> & _)%init_Return. split.
  - apply FormatDb_value.
  - intros ->. reflexivity.
Qed.

(** C7: on a constructed [ConstArray], any number of calls of [Validate],
    whatever their arguments, end normally and leave the object as it
    was. *)
Theorem Validate_noop raw self (args : list (pyobj * pyobj)) :
  __init__ raw = Return self ->
  Validate_all args self = Return (tt, self) /\
  (forall record fieldname, Validate record fieldname self = Return (tt, self)).
Proof.
  intros _. split; [|reflexivity].
  induction args as [|[record fieldname] args IH]; [reflexivity|].
  cbn [Validate_all]. unfold Validate at 1. cbn. exact IH.
Qed.

(** C8: a constructed [ConstArray] holds the sequence it was given, of
    length at least 1 and of one category, and every sequence of calls
    of [Validate], [FormatDb] and [__repr__] ends normally, no assertion
    being run again, with the object unchanged. *)
Theorem constructed_immutable raw self (cs : list call) :
  __init__ raw = Return self ->
  (exists rs, run_calls cs self = Return (rs, self)) /\
  _ConstArray__value self = raw /\
  1 <= length (_ConstArray__value self) /\
  (Forall string_like (_ConstArray__value self) \/
   Forall numeric_like (_ConstArray__value self)).
Proof.
  intros Hinit. split; [apply run_calls_pure|].
  exact (init_invariant raw self Hinit).
Qed.

(** C9: on a constructed [ConstArray], [FormatDb] returns the same
    string whatever the record and the field name, and that string is a
    function of the values given to the constructor. *)
Theorem FormatDb_ignores_context raw self record1 fieldname1 record2 fieldname2 :
  __init__ raw = Return self ->
  FormatDb record1 fieldname1 self = FormatDb record2 fieldname2 self /\
  FormatDb record1 fieldname1 self
  = Return (bracketed (map _format_constant raw), self).
Proof.
  intros (-> & _)%init_Return. split; reflexivity.
Qed.

(** The rendering does not tell [True] from [1]: both arrays print as
    [[1]], so no reader of the output can tell which of the two values
    was given. *)
Remark FormatDb_bool_as_int record fieldname :
  __init__ [PyBool true] = Return (mkConstArray [PyBool true]) /\
  __init__ [PyInt 1] = Return (mkConstArray [PyInt 1]) /\
  FormatDb record fieldname (mkConstArray [PyBool true])
  = Return ("[1]", mkConstArray [PyBool true]) /\
  FormatDb record fieldname (mkConstArray [PyInt 1])
  = Return ("[1]", mkConstArray [PyInt 1]).
Proof. repeat split. Qed.

End RenderingFacts.

(** ** The constructor over the store *)

(** [list(raw_value)] leaves every object of the store as it is and adds
    one, at a location that named nothing before. *)
Lemma Heap_list_spec raw (σ σ1 : gmap positive (list pyobj)) l :
  Heap.list_ raw σ = Some (l, σ1) ->
  exists items,
    σ !! raw = Some items /\ σ !! l = None /\ l <> raw /\
    σ1 = <[l := items]> σ.
Proof.
  unfold Heap.list_. destruct (σ !! raw) as [items|] eqn:Eraw; [|discriminate].
  cbn. intros [= <- <-]. exists items.
  assert (Hfresh : σ !! fresh (dom σ) = None).
  { apply not_elem_of_dom. apply is_fresh. }
  repeat split; [assumption|].
  intros Heq. rewrite Heq in Hfresh. congruence.
Qed.

(** The constructor over the store runs the checks of [_sanitize] on the
    items of the caller's list, and the object it returns refers to the
    new list. *)
Lemma Heap_init_spec raw (σ : gmap positive (list pyobj)) items :
  σ !! raw = Some items ->
  Heap.__init__ raw σ
  = Some (__init__ items;; Return (Heap.mkConstArray (fresh (dom σ))),
          <[fresh (dom σ) := items]> σ).
Proof.
  intros Hraw. unfold Heap.__init__, Heap._sanitize, Heap.list_.
  rewrite Hraw. cbn [mbind option_bind]. rewrite lookup_insert_eq.
  cbn [mbind option_bind]. f_equal. f_equal.
  unfold __init__, _sanitize.
  destruct (assert_ (0 <? length items) Empty_iterable) as [[]|e];
    [|reflexivity].
  cbn [mbind outcome_bind].
  destruct (sanitize_loop 0 false false items); reflexivity.
Qed.

Lemma Heap_init_Return raw (σ σ1 : gmap positive (list pyobj)) self :
  Heap.__init__ raw σ = Some (Return self, σ1) ->
  exists items,
    σ !! raw = Some items /\
    __init__ items = Return (mkConstArray items) /\
    self = Heap.mkConstArray (fresh (dom σ)) /\
    σ1 = <[fresh (dom σ) := items]> σ.
Proof.
  intros Hinit. destruct (σ !! raw) as [items|] eqn:Eraw.
  - rewrite (Heap_init_spec raw σ items Eraw) in Hinit.
    injection Hinit as Hout <-. exists items.
    destruct (__init__ items) as [a|e] eqn:E; [|discriminate].
    apply init_Return in E as (-> & _). cbn in Hout. injection Hout as <-.
    repeat split.
  - unfold Heap.__init__, Heap._sanitize, Heap.list_ in Hinit.
    rewrite Eraw in Hinit. discriminate.
Qed.

(** C10: the object the constructor returns refers to a list object that
    did not exist before and is not the caller's; it holds the items the
    caller's list had at construction; and after any change in place of
    the caller's list, the stored list is as it was and [FormatDb]
    returns the rendering of the items given at construction. *)
Theorem constructor_copies `{Collaborators}
    raw (σ σ1 : gmap positive (list pyobj)) self
    (f : list pyobj -> list pyobj) record fieldname :
  Heap.__init__ raw σ = Some (Return self, σ1) ->
  exists items,
    σ !! raw = Some items /\
    σ !! Heap._ConstArray__value self = None /\
    Heap._ConstArray__value self <> raw /\
    σ1 !! Heap._ConstArray__value self = Some items /\
    Heap.mutate raw f σ1 !! Heap._ConstArray__value self = Some items /\
    Heap.FormatDb self record fieldname σ1
    = Some (bracketed (map render_by_kind items), σ1) /\
    Heap.FormatDb self record fieldname (Heap.mutate raw f σ1)
    = Some (bracketed (map render_by_kind items), Heap.mutate raw f σ1).
Proof.
  intros (items & Hraw & _ & -> & ->)%Heap_init_Return.
  exists items. cbn [Heap._ConstArray__value].
  assert (Hfresh : σ !! fresh (dom σ) = None).
  { apply not_elem_of_dom. apply is_fresh. }
  assert (Hne : fresh (dom σ) <> raw).
  { intros Heq. rewrite Heq in Hfresh. congruence. }
  assert (Hstored : <[fresh (dom σ) := items]> σ !! fresh (dom σ) = Some items)
    by apply lookup_insert_eq.
  assert (Hafter : Heap.mutate raw f (<[fresh (dom σ) := items]> σ)
                     !! fresh (dom σ) = Some items).
  { unfold Heap.mutate. rewrite lookup_alter_ne by congruence. exact Hstored. }
  assert (Hmap : map _format_constant items = map render_by_kind items).
  { apply map_ext. intros v. apply _format_constant_by_kind. }
  repeat split; try assumption.
  - unfold Heap.FormatDb. cbn [Heap._ConstArray__value]. rewrite Hstored.
    cbn [mbind option_bind]. rewrite Hmap. reflexivity.
  - unfold Heap.FormatDb. cbn [Heap._ConstArray__value]. rewrite Hafter.
    cbn [mbind option_bind]. rewrite Hmap. reflexivity.
Qed.

(** ** The examples of the specification and of the sources *)

(** The docstring of the class: one plain string. *)
Example docstring_example record fieldname :
  (self ← __init__ [PyStr "Plain String not DBLINK"];
   FormatDb (H := Sample.collaborators) record fieldname self)
  = Return ("[" +:+ dquote +:+ "Plain String not DBLINK" +:+ dquote +:+ "]",
            mkConstArray [PyStr "Plain String not DBLINK"]).
Proof. reflexivity. Qed.

(** [examples/test.py]: three strings. *)
Example test_py_example record fieldname :
  (self ← __init__ [PyStr "A"; PyStr "B"; PyStr "C"];
   FormatDb (H := Sample.collaborators) record fieldname self)
  = Return ("[" +:+ dquote +:+ "A" +:+ dquote +:+ ","
                +:+ dquote +:+ "B" +:+ dquote +:+ ","
                +:+ dquote +:+ "C" +:+ dquote +:+ "]",
            mkConstArray [PyStr "A"; PyStr "B"; PyStr "C"]).
Proof. reflexivity. Qed.

(** Booleans print as 1 and 0 also next to integers. *)
Example bool_example record fieldname :
  (self ← __init__ [PyBool true; PyInt (-7); PyBool false];
   FormatDb (H := Sample.collaborators) record fieldname self)
  = Return ("[1,-7,0]", mkConstArray [PyBool true; PyInt (-7); PyBool false]).
Proof. reflexivity. Qed.

(** The message of the assertion on a string followed by a number. *)
Example mixed_message :
  message (Mix_numbers 1 cls_int)
  = "ConstArray: cannot mix numbers with an element at index 1 which is <class 'int'>.".
Proof. reflexivity. Qed.

(** ** Witnesses *)

Lemma FormatDb_renders_witness :
  FormatDb (H := Sample.collaborators) (PyObject "record") (PyStr "INP")
    (mkConstArray [PyInt 1; PyInt 2; PyInt 3])
  = Return ("[1,2,3]", mkConstArray [PyInt 1; PyInt 2; PyInt 3]).
Proof.
  exact (proj2 (FormatDb_renders (H := Sample.collaborators)
                  [PyInt 1; PyInt 2; PyInt 3]
                  (mkConstArray [PyInt 1; PyInt 2; PyInt 3])
                  (PyObject "record") (PyStr "INP") eq_refl) eq_refl).
Defined.

Lemma Validate_noop_witness :
  Validate_all [(PyObject "record", PyStr "INP");
                (PyObject "record", PyStr "OUT")]
    (mkConstArray [PyStr "A"])
  = Return (tt, mkConstArray [PyStr "A"]).
Proof.
  exact (proj1 (Validate_noop [PyStr "A"] (mkConstArray [PyStr "A"])
                  [(PyObject "record", PyStr "INP");
                   (PyObject "record", PyStr "OUT")] eq_refl)).
Defined.

Lemma constructed_immutable_witness :
  exists rs,
    run_calls (H := Sample.collaborators)
      [call_Validate (PyObject "record") (PyStr "INP");
       call_FormatDb (PyObject "record") (PyStr "INP");
       call_repr]
      (mkConstArray [PyInt 1; PyInt 2])
    = Return (rs, mkConstArray [PyInt 1; PyInt 2]).
Proof.
  exact (proj1 (constructed_immutable (H := Sample.collaborators)
                  [PyInt 1; PyInt 2] (mkConstArray [PyInt 1; PyInt 2])
                  [call_Validate (PyObject "record") (PyStr "INP");
                   call_FormatDb (PyObject "record") (PyStr "INP");
                   call_repr] eq_refl)).
Defined.

Lemma FormatDb_ignores_context_witness :
  FormatDb (H := Sample.collaborators) (PyObject "record") (PyStr "INP")
    (mkConstArray [PyStr "A"])
  = FormatDb (H := Sample.collaborators) (PyObject "other") (PyStr "OUT")
      (mkConstArray [PyStr "A"]).
Proof.
  exact (proj1 (FormatDb_ignores_context (H := Sample.collaborators)
                  [PyStr "A"] (mkConstArray [PyStr "A"])
                  (PyObject "record") (PyStr "INP")
                  (PyObject "other") (PyStr "OUT") eq_refl)).
Defined.

(** The caller's list is emptied after construction; the output is that
    of the three integers given at construction. *)
Lemma constructor_copies_witness :
  let σ : gmap positive (list pyobj) :=
    {[ 1%positive := [PyInt 1; PyInt 2; PyInt 3] ]} in
  let self := Heap.mkConstArray (fresh (dom σ)) in
  let σ1 := <[fresh (dom σ) := [PyInt 1; PyInt 2; PyInt 3]]> σ in
  Heap.__init__ 1%positive σ = Some (Return self, σ1) /\
  Heap.mutate 1%positive (fun _ => []) σ1 !! 1%positive = Some [] /\
  fst <$> Heap.FormatDb (H := Sample.collaborators) self
            (PyObject "record") (PyStr "INP")
            (Heap.mutate 1%positive (fun _ => []) σ1)
  = Some "[1,2,3]".
Proof.
  intros σ self σ1.
  assert (Hinit : Heap.__init__ 1%positive σ = Some (Return self, σ1))
    by (vm_compute; reflexivity).
  split; [exact Hinit|]. split; [vm_compute; reflexivity|].
  destruct (constructor_copies (H := Sample.collaborators)
              1%positive σ σ1 self (fun _ => [])
              (PyObject "record") (PyStr "INP") Hinit)
    as (items & Hraw & _ & _ & _ & _ & _ & Hfmt).
  rewrite Hfmt. vm_compute in Hraw. injection Hraw as <-. reflexivity.
Defined.

(** ** Further properties of the constructor *)

Lemma init_homogeneous raw :
  raw <> [] -> Forall string_like raw \/ Forall numeric_like raw ->
  __init__ raw = Return (mkConstArray raw).
Proof.
  intros Hne [Hall|Hall]; eapply init_of_loop_Return; try eassumption.
  - apply sanitize_loop_string_like, Hall.
  - apply sanitize_loop_numeric_like, Hall.
Qed.

Lemma accepted_iff raw :
  accepted raw <->
  raw <> [] /\ (Forall string_like raw \/ Forall numeric_like raw).
Proof.
  split.
  - intros [self Hinit].
    destruct (init_invariant raw self Hinit) as (Hval & _ & Hhom).
    rewrite Hval in Hhom.
    apply init_Return in Hinit as (_ & Hne & _). auto.
  - intros [Hne Hhom]. eexists. apply init_homogeneous; assumption.
Qed.

Lemma init_Return_iff_aux raw self :
  __init__ raw = Return self ->
  self = mkConstArray raw /\ raw <> [] /\
  (Forall string_like raw \/ Forall numeric_like raw).
Proof.
  intros Hinit.
  destruct (init_invariant raw self Hinit) as (Hval & _ & Hhom).
  rewrite Hval in Hhom.
  apply init_Return in Hinit as (-> & Hne & _). auto.
Qed.

(** X1: the constructor ends normally exactly on the non-empty sequences
    whose elements are all string-like or all numeric-like, and the
    object then holds the sequence as given. *)
Theorem init_Return_iff raw self :
  __init__ raw = Return self <->
  self = mkConstArray raw /\ raw <> [] /\
  (Forall string_like raw \/ Forall numeric_like raw).
Proof.
  split.
  - intros Hinit.
    destruct (init_invariant raw self Hinit) as (Hval & _ & Hhom).
    rewrite Hval in Hhom.
    apply init_Return in Hinit as (-> & Hne & _). auto.
  - intros (-> & Hne & Hhom). apply init_homogeneous; assumption.
Qed.

(** The flags the loop reaches from the initial ones tell the category
    of the elements it went through. *)
Lemma sanitize_loop_flags index vs numbers strings :
  sanitize_loop index false false vs = Return (numbers, strings) ->
  (numbers = true -> vs <> [] /\ Forall numeric_like vs) /\
  (strings = true -> vs <> [] /\ Forall string_like vs).
Proof.
  intros Hloop.
  destruct (sanitize_loop_Return_homogeneous _ _ _ _ _ Hloop) as [Hall|Hall].
  - rewrite (sanitize_loop_string_like index false vs Hall) in Hloop.
    injection Hloop as <- <-. split; [discriminate|].
    destruct vs; [discriminate|]. intros _. split; [discriminate|assumption].
  - rewrite (sanitize_loop_numeric_like index false vs Hall) in Hloop.
    injection Hloop as <- <-. split; [|discriminate].
    destruct vs; [discriminate|]. intros _. split; [discriminate|assumption].
Qed.

(** A loop that raises does so on one element, after a prefix it went
    through normally. *)
Lemma sanitize_loop_Raise index numbers strings vs e :
  sanitize_loop index numbers strings vs = Raise e ->
  exists j v numbers' strings',
    vs !! j = Some v /\
    sanitize_loop index numbers strings (take j vs)
    = Return (numbers', strings') /\
    sanitize_loop (index + j) numbers' strings' [v] = Raise e.
Proof.
  revert index numbers strings.
  induction vs as [|w vs IH]; intros index numbers strings Hloop;
    [discriminate|].
  assert (Hhere : sanitize_loop index numbers strings [w] = Raise e ->
    exists j v numbers' strings',
      (w :: vs) !! j = Some v /\
      sanitize_loop index numbers strings (take j (w :: vs))
      = Return (numbers', strings') /\
      sanitize_loop (index + j) numbers' strings' [v] = Raise e).
  { intros Hw. exists 0, w, numbers, strings.
    rewrite Nat.add_0_r. repeat split. exact Hw. }
  revert Hloop Hhere. loop_round w.
  - destruct numbers; intros Hloop Hhere; [apply Hhere; exact Hloop|].
    destruct (IH _ _ _ Hloop) as (j & v & n' & s' & Hj & Hpre & Hstop).
    exists (S j), v, n', s'. cbn [take lookup list_lookup].
    rewrite (sanitize_loop_string_head _ _ _ _ _ Hkind).
    replace (index + S j) with (S index + j) by lia. auto.
  - destruct strings; intros Hloop Hhere; [apply Hhere; exact Hloop|].
    destruct (IH _ _ _ Hloop) as (j & v & n' & s' & Hj & Hpre & Hstop).
    exists (S j), v, n', s'. cbn [take lookup list_lookup].
    rewrite (sanitize_loop_numeric_head _ _ _ _ _ Hkind).
    replace (index + S j) with (S index + j) by lia. auto.
  - intros Hloop Hhere. apply Hhere. exact Hloop.
Qed.

(** The assertion that fails on one element, from its kind and the
    flags. *)
Lemma sanitize_loop_single_Raise index numbers strings v e :
  sanitize_loop index numbers strings [v] = Raise e ->
  (~ valid_kind v /\ e = Unexpected_element index (type_ v)) \/
  (string_like v /\ numbers = true /\ e = Mix_strings index (type_ v)) \/
  (numeric_like v /\ strings = true /\ e = Mix_numbers index (type_ v)).
Proof.
  loop_round v.
  - destruct numbers; [|discriminate]. intros [= <-]. auto.
  - destruct strings; [|discriminate]. intros [= <-]. auto 6.
  - intros [= <-]. auto.
Qed.

(** X2: when the constructor raises on a non-empty sequence, the index in
    the error is that of an element of the sequence and the class in the
    error is the class of that element; the elements before it are of
    one category, so they would pass on their own; and the element is
    either of no valid kind, or of the category opposite to theirs, in
    which case there is at least one before it.  On the empty sequence
    the error is the one on the length. *)
Theorem init_Raise_located raw e :
  __init__ raw = Raise e ->
  (raw = [] /\ e = Empty_iterable) \/
  exists j v,
    raw !! j = Some v /\ error_index e = Some j /\
    ((~ valid_kind v /\ e = Unexpected_element j (type_ v) /\
      (Forall string_like (take j raw) \/ Forall numeric_like (take j raw))) \/
     (string_like v /\ e = Mix_strings j (type_ v) /\
      0 < j /\ Forall numeric_like (take j raw)) \/
     (numeric_like v /\ e = Mix_numbers j (type_ v) /\
      0 < j /\ Forall string_like (take j raw))).
Proof.
  destruct raw as [|v0 vs]; [intros [= <-]; auto|].
  rewrite init_nonempty.
  destruct (sanitize_loop 0 false false (v0 :: vs)) as [flags|e'] eqn:Hloop;
    [discriminate|].
  cbn. intros [= ->]. right.
  destruct (sanitize_loop_Raise _ _ _ _ _ Hloop)
    as (j & v & n' & s' & Hj & Hpre & Hstop).
  cbn [Nat.add] in Hstop.
  destruct (sanitize_loop_flags _ _ _ _ Hpre) as [Hnum Hstr].
  assert (Hpos : forall l : list pyobj, take j (v0 :: vs) = l -> l <> [] -> 0 < j).
  { intros l <- Hl. destruct j; [contradiction|lia]. }
  exists j, v. split; [exact Hj|].
  destruct (sanitize_loop_single_Raise _ _ _ _ _ Hstop)
    as [[Hv ->]|[(Hv & -> & ->)|(Hv & -> & ->)]].
  - split; [reflexivity|]. left. repeat split; [assumption|].
    eapply sanitize_loop_Return_homogeneous; eassumption.
  - split; [reflexivity|]. right; left.
    destruct (Hnum eq_refl) as [Hne Hall]. repeat split; eauto.
  - split; [reflexivity|]. right; right.
    destruct (Hstr eq_refl) as [Hne Hall]. repeat split; eauto.
Qed.

Lemma init_Raise_located_witness :
  exists j v,
    [PyInt 1; PyInt 2; PyStr "A"; PyObject "NoneType"] !! j = Some v /\
    error_index (Mix_strings 2 cls_str) = Some j.
Proof.
  destruct (init_Raise_located
              [PyInt 1; PyInt 2; PyStr "A"; PyObject "NoneType"]
              (Mix_strings 2 cls_str) eq_refl)
    as [[Hnil _]|(j & v & Hj & Hidx & _)].
  - discriminate Hnil.
  - exists j, v. split; assumption.
Defined.

(** X3: the error raised on a non-empty sequence is the error raised on
    every sequence that extends it: what follows the offending element is
    never looked at. *)
Theorem init_Raise_extends l1 l2 e :
  l1 <> [] -> __init__ l1 = Raise e -> __init__ (l1 ++ l2) = Raise e.
Proof.
  destruct l1 as [|v l1]; [contradiction|]. intros _.
  rewrite <- app_comm_cons, !init_nonempty, app_comm_cons, sanitize_loop_app.
  destruct (sanitize_loop 0 false false (v :: l1)) as [flags|e']; [discriminate|].
  cbn. intros [= ->]. reflexivity.
Qed.

Lemma init_Raise_extends_witness :
  __init__ ([PyStr "A"; PyInt 1] ++ [PyObject "NoneType"])
  = Raise (Mix_numbers 1 cls_int).
Proof.
  refine (init_Raise_extends [PyStr "A"; PyInt 1] [PyObject "NoneType"]
            (Mix_numbers 1 cls_int) _ eq_refl).
  discriminate.
Defined.

Lemma Forall_both_kinds (l : list pyobj) :
  l <> [] -> Forall string_like l -> Forall numeric_like l -> False.
Proof.
  destruct l as [|v l]; [contradiction|]. intros _ Hs Hn.
  apply Forall_cons_1 in Hs as [Hs _]. apply Forall_cons_1 in Hn as [Hn _].
  exact (string_like_not_numeric v Hs Hn).
Qed.

(** X4: the concatenation of two non-empty sequences is accepted exactly
    when each of them is and they are of the same category. *)
Theorem accepted_app l1 l2 :
  l1 <> [] -> l2 <> [] ->
  (accepted (l1 ++ l2) <->
   accepted l1 /\ accepted l2 /\
   (Forall string_like l1 <-> Forall string_like l2)).
Proof.
  intros Hne1 Hne2. rewrite !accepted_iff. split.
  - intros [_ [[H1 H2]%Forall_app|[H1 H2]%Forall_app]].
    + repeat split; auto.
    + repeat split; auto; intros Hs; exfalso;
        eauto using Forall_both_kinds.
  - intros ([_ Hhom1] & [_ Hhom2] & Hsame). split.
    + intros Happ. apply app_eq_nil in Happ as [-> _]. contradiction.
    + destruct Hhom1 as [Hs1|Hn1].
      * left. apply Forall_app. split; [assumption|]. apply Hsame, Hs1.
      * destruct Hhom2 as [Hs2|Hn2].
        -- exfalso. apply (Forall_both_kinds l1); auto. apply Hsame, Hs2.
        -- right. apply Forall_app. auto.
Qed.

Lemma accepted_app_witness :
  accepted ([PyInt 1; PyBool true] ++ [PyInt 7]).
Proof.
  refine (proj2 (accepted_app [PyInt 1; PyBool true] [PyInt 7] _ _) _);
    [discriminate|discriminate|].
  split; [eexists; reflexivity|]. split; [eexists; reflexivity|].
  split; intros Hs; apply Forall_cons_1 in Hs as [Hs _]; discriminate Hs.
Defined.

(** X5: whatever is left of an accepted sequence after elements are removed
    and the rest put in any order is accepted, unless nothing is left:
    acceptance depends on the kinds present, not on their order. *)
Theorem accepted_submseteq (raw l : list pyobj) :
  accepted raw -> l ⊆+ raw -> l <> [] -> accepted l.
Proof.
  rewrite !accepted_iff. intros [_ Hhom] Hsub Hne. split; [assumption|].
  destruct Hhom as [Hall|Hall]; [left|right];
    rewrite Forall_forall in Hall; apply Forall_forall;
    intros x Hx; apply Hall; eapply elem_of_submseteq; eassumption.
Qed.

Lemma accepted_submseteq_witness : accepted [PyStr "C"; PyStr "A"].
Proof.
  refine (accepted_submseteq [PyStr "A"; PyStr "B"; PyStr "C"]
            [PyStr "C"; PyStr "A"] _ _ _).
  - eexists. reflexivity.
  - apply (submseteq_trans _ [PyStr "A"; PyStr "C"]).
    + apply Permutation_submseteq, perm_swap.
    + apply submseteq_skip, submseteq_cons, submseteq_skip, submseteq_nil.
  - discriminate.
Defined.

(** X6: the loop never unsets a flag, never ends with both flags set unless
    it started so, and ends with a flag set when it went through an
    element. *)
Theorem sanitize_loop_flags_invariant index numbers0 strings0 vs numbers strings :
  sanitize_loop index numbers0 strings0 vs = Return (numbers, strings) ->
  (numbers0 = true -> numbers = true) /\
  (strings0 = true -> strings = true) /\
  (numbers0 && strings0 = false -> numbers && strings = false) /\
  (vs <> [] -> numbers || strings = true).
Proof.
  revert index numbers0 strings0.
  induction vs as [|v vs IH]; intros index numbers0 strings0.
  - intros [= <- <-]. repeat split; auto; try contradiction.
  - loop_round v; [| |discriminate].
    + destruct numbers0; [discriminate|]. intros Hloop.
      destruct (IH _ _ _ Hloop) as (_ & Hs & Hexcl & _).
      specialize (Hs eq_refl). specialize (Hexcl eq_refl). subst strings.
      repeat split; auto; try discriminate.
      intros _. destruct numbers; reflexivity.
    + destruct strings0; [discriminate|]. intros Hloop.
      destruct (IH _ _ _ Hloop) as (Hn & _ & Hexcl & _).
      specialize (Hn eq_refl). specialize (Hexcl eq_refl). subst numbers.
      repeat split; auto; discriminate.
Qed.

Lemma sanitize_loop_flags_invariant_witness :
  true && false = false /\ true || false = true.
Proof.
  destruct (sanitize_loop_flags_invariant 0 false false
              [PyInt 1; PyFloat S754_nan] true false eq_refl)
    as (_ & _ & Hexcl & Hset).
  split; [apply Hexcl; reflexivity|apply Hset; discriminate].
Defined.

(** ** Further properties of the rendering *)

Lemma append_assoc (s1 s2 s3 : string) :
  (s1 +:+ s2) +:+ s3 = s1 +:+ (s2 +:+ s3).
Proof.
  induction s1 as [|c s1 IH]; [reflexivity|].
  change (String c ((s1 +:+ s2) +:+ s3) = String c (s1 +:+ s2 +:+ s3)).
  rewrite IH. reflexivity.
Qed.

Lemma append_bracket_inj (s1 s2 : string) :
  s1 +:+ "]" = s2 +:+ "]" -> s1 = s2.
Proof.
  revert s2. induction s1 as [|c s1 IH]; intros [|c2 s2]; cbn; intros Heq.
  - reflexivity.
  - injection Heq as _ Heq. destruct s2; discriminate Heq.
  - injection Heq as _ Heq. destruct s1; discriminate Heq.
  - injection Heq as <- Heq. f_equal. apply IH. exact Heq.
Qed.

Lemma concat_app (sep : string) (l1 l2 : list string) :
  l1 <> [] -> l2 <> [] ->
  String.concat sep (l1 ++ l2)
  = String.concat sep l1 +:+ sep +:+ String.concat sep l2.
Proof.
  intros Hne1 Hne2. induction l1 as [|x [|y l1] IH]; [contradiction| |].
  - destruct l2; [contradiction|reflexivity].
  - change (x +:+ sep +:+ String.concat sep ((y :: l1) ++ l2)
            = (x +:+ sep +:+ String.concat sep (y :: l1))
              +:+ sep +:+ String.concat sep l2).
    rewrite IH by discriminate. rewrite !append_assoc. reflexivity.
Qed.

Lemma fields_comma_free x : comma_free x = true -> fields x = [x].
Proof.
  induction x as [|c x IH]; cbn [fields comma_free]; [reflexivity|].
  intros [Hc Hx]%andb_true_iff. apply negb_true_iff in Hc.
  rewrite Hc, (IH Hx). reflexivity.
Qed.

Lemma fields_append x s :
  comma_free x = true -> fields (x +:+ "," +:+ s) = x :: fields s.
Proof.
  induction x as [|c x IH]; [reflexivity|].
  change (String c x +:+ "," +:+ s) with (String c (x +:+ "," +:+ s)).
  cbn [fields comma_free].
  intros [Hc Hx]%andb_true_iff. apply negb_true_iff in Hc.
  rewrite Hc, (IH Hx). reflexivity.
Qed.

Lemma fields_concat (xs : list string) :
  xs <> [] -> Forall (fun x => comma_free x = true) xs ->
  fields (String.concat "," xs) = xs.
Proof.
  intros Hne Hall. induction Hall as [|x [|y xs] Hx Hall IH]; [contradiction| |].
  - apply fields_comma_free, Hx.
  - change (fields (x +:+ "," +:+ String.concat "," (y :: xs)) = x :: y :: xs).
    rewrite (fields_append _ _ Hx), IH by discriminate. reflexivity.
Qed.

Lemma comma_free_string_of_uint d :
  comma_free (NilEmpty.string_of_uint d) = true.
Proof. induction d; cbn; auto. Qed.

Lemma comma_free_int_str n : comma_free (int_str n) = true.
Proof.
  unfold int_str.
  destruct (Z.to_int n) as [d|d]; cbn;
    destruct d; cbn; auto using comma_free_string_of_uint.
Qed.

Lemma to_int_nonnil n :
  Z.to_int n <> Decimal.Pos Decimal.Nil /\ Z.to_int n <> Decimal.Neg Decimal.Nil.
Proof.
  destruct n as [|p|p]; cbn; split; try discriminate;
    intros [= Hp]; exact (DecimalPos.Unsigned.to_uint_nonnil p Hp).
Qed.

Lemma int_str_inj n m : int_str n = int_str m -> n = m.
Proof.
  unfold int_str. intros Heq. apply DecimalZ.to_int_inj.
  destruct (to_int_nonnil n) as [Hn1 Hn2].
  destruct (to_int_nonnil m) as [Hm1 Hm2].
  pose proof (NilZero.isi (Z.to_int n) Hn1 Hn2) as Hn.
  pose proof (NilZero.isi (Z.to_int m) Hm1 Hm2) as Hm.
  rewrite Heq in Hn. congruence.
Qed.

Lemma map_int_str_inj ns ms : map int_str ns = map int_str ms -> ns = ms.
Proof.
  revert ms. induction ns as [|n ns IH]; intros [|m ms] Heq;
    try discriminate; [reflexivity|].
  cbn [map] in Heq. injection Heq as Hhead Htail.
  f_equal; [apply int_str_inj; assumption|apply IH; assumption].
Qed.

Section RenderingMore.
Context `{Collaborators}.

Lemma FormatDb_joined record fieldname self :
  FormatDb record fieldname self
  = Return ("[" +:+ joined (_ConstArray__value self) +:+ "]", self).
Proof. reflexivity. Qed.

(** X7: the output for a concatenation of two non-empty sequences is what
    stands between the brackets for the first, a comma, and what stands
    between the brackets for the second, in one pair of brackets. *)
Theorem FormatDb_app l1 l2 self record fieldname :
  l1 <> [] -> l2 <> [] -> __init__ (l1 ++ l2) = Return self ->
  FormatDb record fieldname self
  = Return ("[" +:+ joined l1 +:+ "," +:+ joined l2 +:+ "]", self) /\
  FormatDb record fieldname (mkConstArray l1)
  = Return ("[" +:+ joined l1 +:+ "]", mkConstArray l1) /\
  FormatDb record fieldname (mkConstArray l2)
  = Return ("[" +:+ joined l2 +:+ "]", mkConstArray l2).
Proof.
  intros Hne1 Hne2 (-> & _)%init_Return.
  split; [|split; apply FormatDb_joined].
  rewrite FormatDb_joined. cbn [_ConstArray__value]. unfold joined.
  rewrite map_app, concat_app, !append_assoc; [reflexivity| |].
  - destruct l1; [contradiction|discriminate].
  - destruct l2; [contradiction|discriminate].
Qed.

Lemma category_of_bool_as_int v : category_of (bool_as_int v) = category_of v.
Proof. destruct v; reflexivity. Qed.

Lemma _format_constant_bool_as_int v :
  _format_constant (bool_as_int v) = _format_constant v.
Proof. destruct v as [| | | |[]| |]; reflexivity. Qed.

(** X8: booleans are told from the integers 1 and 0 neither by the
    constructor nor in the output: with every boolean replaced by the
    integer it equals, a sequence that was accepted is accepted and
    [FormatDb] returns the same text. *)
Theorem bool_as_int_same_output raw self record fieldname :
  __init__ raw = Return self ->
  __init__ (map bool_as_int raw) = Return (mkConstArray (map bool_as_int raw)) /\
  exists text,
    FormatDb record fieldname self = Return (text, self) /\
    FormatDb record fieldname (mkConstArray (map bool_as_int raw))
    = Return (text, mkConstArray (map bool_as_int raw)).
Proof.
  intros Hinit.
  destruct (init_Return_iff_aux raw self Hinit) as (-> & Hne & Hhom).
  split.
  - apply init_homogeneous; [destruct raw; [contradiction|discriminate]|].
    destruct Hhom as [Hall|Hall]; [left|right];
      apply Forall_map; eapply Forall_impl; try exact Hall;
      intros v Hv; unfold string_like, numeric_like in *; cbn;
      rewrite category_of_bool_as_int; exact Hv.
  - eexists. split; [reflexivity|].
    unfold FormatDb. cbn [_ConstArray__value]. rewrite map_map.
    rewrite (map_ext (fun v => _format_constant (bool_as_int v))
               _format_constant _format_constant_bool_as_int).
    reflexivity.
Qed.

(** X9: on sequences of integers nothing is lost in the output: two
    constructed arrays of integers for which [FormatDb] returns the same
    text hold the same integers in the same order. *)
Theorem FormatDb_int_injective ns ms a b text record fieldname record' fieldname' :
  __init__ (map PyInt ns) = Return a ->
  __init__ (map PyInt ms) = Return b ->
  FormatDb record fieldname a = Return (text, a) ->
  FormatDb record' fieldname' b = Return (text, b) ->
  ns = ms.
Proof.
  intros (-> & Hne & _)%init_Return (-> & Hme & _)%init_Return.
  rewrite !FormatDb_joined. cbn [_ConstArray__value]. unfold joined.
  rewrite !map_map. intros [= <-] [= Heq].
  apply append_bracket_inj in Heq.
  assert (Hfields : forall l : list Z, l <> [] ->
            fields (String.concat ","
                      (map (fun n => _format_constant (PyInt n)) l))
            = map int_str l).
  { intros l Hl. rewrite fields_concat.
    - apply map_ext. reflexivity.
    - destruct l; [contradiction|discriminate].
    - apply Forall_map, Forall_true. intros n. apply comma_free_int_str. }
  assert (Hns : ns <> []) by (intros ->; contradiction).
  assert (Hms : ms <> []) by (intros ->; contradiction).
  apply (f_equal fields) in Heq. rewrite !Hfields in Heq by assumption.
  apply map_int_str_inj. symmetry. exact Heq.
Qed.

End RenderingMore.

Lemma FormatDb_app_witness :
  FormatDb (H := Sample.collaborators) (PyObject "record") (PyStr "INP")
    (mkConstArray ([PyStr "A"] ++ [PyStr "B"; PyStr "C"]))
  = Return ("[" +:+ joined (H := Sample.collaborators) [PyStr "A"]
                +:+ "," +:+ joined (H := Sample.collaborators)
                                   [PyStr "B"; PyStr "C"] +:+ "]",
            mkConstArray ([PyStr "A"] ++ [PyStr "B"; PyStr "C"])).
Proof.
  refine (proj1 (FormatDb_app (H := Sample.collaborators)
                   [PyStr "A"] [PyStr "B"; PyStr "C"] _
                   (PyObject "record") (PyStr "INP") _ _ eq_refl));
    discriminate.
Defined.

Lemma bool_as_int_same_output_witness :
  __init__ (map bool_as_int [PyBool true; PyInt 5; PyBool false])
  = Return (mkConstArray [PyInt 1; PyInt 5; PyInt 0]).
Proof.
  exact (proj1 (bool_as_int_same_output (H := Sample.collaborators)
                  [PyBool true; PyInt 5; PyBool false]
                  (mkConstArray [PyBool true; PyInt 5; PyBool false])
                  (PyObject "record") (PyStr "INP") eq_refl)).
Defined.

Lemma FormatDb_int_injective_witness : [1; -2; 30]%Z = [1; -2; 30]%Z.
Proof.
  exact (FormatDb_int_injective (H := Sample.collaborators)
           [1; -2; 30]%Z [1; -2; 30]%Z
           (mkConstArray (map PyInt [1; -2; 30]%Z))
           (mkConstArray (map PyInt [1; -2; 30]%Z))
           "[1,-2,30]"
           (PyObject "record") (PyStr "INP") (PyObject "other") (PyStr "OUT")
           eq_refl eq_refl eq_refl eq_refl).
Defined.

(** ** Further properties of the constructor over the store *)

(** X10: the constructor, whether it ends normally or raises, changes no list
    object that existed before, the caller's list among them: all it
    does to the store is to add one list object, at a location that
    named nothing before. *)
Theorem Heap_init_frame raw (σ σ1 : gmap positive (list pyobj)) r :
  Heap.__init__ raw σ = Some (r, σ1) ->
  σ1 !! raw = σ !! raw /\
  (forall l, l ∈ dom σ -> σ1 !! l = σ !! l) /\
  (fresh (dom σ) ∉ dom σ) /\
  dom σ1 = dom σ ∪ {[fresh (dom σ)]}.
Proof.
  intros Hinit.
  assert (Hfresh : fresh (dom σ) ∉ dom σ) by apply is_fresh.
  destruct (σ !! raw) as [items|] eqn:Eraw.
  - rewrite (Heap_init_spec raw σ items Eraw) in Hinit.
    injection Hinit as _ <-.
    assert (Hframe : forall l, l ∈ dom σ ->
              <[fresh (dom σ) := items]> σ !! l = σ !! l).
    { intros l Hl. apply lookup_insert_ne. intros <-. contradiction. }
    repeat split; [|exact Hframe|exact Hfresh|].
    + rewrite Hframe, Eraw; [reflexivity|]. apply elem_of_dom. eauto.
    + rewrite dom_insert_L. apply (comm_L (∪)).
  - unfold Heap.__init__, Heap._sanitize, Heap.list_ in Hinit.
    rewrite Eraw in Hinit. discriminate.
Qed.

(** X11: over the store the constructor ends as it does on the items the
    caller's list holds at that moment: with the same error when they
    are rejected, and otherwise with an object whose list holds them. *)
Theorem Heap_init_outcome raw (σ : gmap positive (list pyobj)) items :
  σ !! raw = Some items ->
  exists r σ1,
    Heap.__init__ raw σ = Some (r, σ1) /\
    match __init__ items with
    | Return _ =>
        exists self, r = Return self /\
                     σ1 !! Heap._ConstArray__value self = Some items
    | Raise e => r = Raise e
    end.
Proof.
  intros Hraw. rewrite (Heap_init_spec raw σ items Hraw).
  eexists _, _. split; [reflexivity|].
  destruct (__init__ items) as [a|e]; cbn; [|reflexivity].
  eexists. split; [reflexivity|]. cbn. apply lookup_insert_eq.
Qed.

(** X12: two objects constructed one after the other from the same list
    refer to two distinct list objects, each holding the items of the
    caller's list; the second construction leaves the list of the first
    object as it was. *)
Theorem Heap_init_twice raw (σ σ1 σ2 : gmap positive (list pyobj)) a b :
  Heap.__init__ raw σ = Some (Return a, σ1) ->
  Heap.__init__ raw σ1 = Some (Return b, σ2) ->
  Heap._ConstArray__value a <> Heap._ConstArray__value b /\
  σ2 !! Heap._ConstArray__value a = σ !! raw /\
  σ2 !! Heap._ConstArray__value b = σ !! raw.
Proof.
  intros Ha Hb.
  apply Heap_init_Return in Ha as (items & Hitems & _ & -> & ->).
  apply Heap_init_Return in Hb as (items' & Hitems' & _ & -> & ->).
  cbn [Heap._ConstArray__value].
  set (σ1 := <[fresh (dom σ) := items]> σ) in *.
  assert (Ha1 : σ1 !! fresh (dom σ) = Some items) by apply lookup_insert_eq.
  assert (Hne : fresh (dom σ1) <> fresh (dom σ)).
  { intros Heq. pose proof (is_fresh (dom σ1)) as Hfresh.
    rewrite Heq in Hfresh. apply Hfresh, elem_of_dom. eauto. }
  assert (Hraw1 : σ1 !! raw = Some items).
  { unfold σ1. rewrite lookup_insert_ne; [exact Hitems|].
    intros Heq. pose proof (is_fresh (dom σ)) as Hfresh.
    rewrite Heq in Hfresh. apply Hfresh, elem_of_dom. eauto. }
  assert (Hsame : items' = items) by congruence. subst items'.
  repeat split.
  - intros Heq. apply Hne. symmetry. exact Heq.
  - rewrite lookup_insert_ne by exact Hne. rewrite Ha1, Hitems. reflexivity.
  - rewrite lookup_insert_eq, Hitems. reflexivity.
Qed.

Lemma Heap_init_frame_witness :
  let σ : gmap positive (list pyobj) :=
    {[ 1%positive := [PyStr "A"; PyInt 1] ]} in
  <[fresh (dom σ) := [PyStr "A"; PyInt 1]]> σ !! 1%positive = σ !! 1%positive.
Proof.
  intros σ.
  refine (proj1 (Heap_init_frame 1%positive σ
                   (<[fresh (dom σ) := [PyStr "A"; PyInt 1]]> σ)
                   (Raise (Mix_numbers 1 cls_int)) _)).
  vm_compute. reflexivity.
Defined.

Lemma Heap_init_outcome_witness :
  let σ : gmap positive (list pyobj) := {[ 1%positive := [PyInt 1; PyInt 2] ]} in
  exists r σ1, Heap.__init__ 1%positive σ = Some (r, σ1).
Proof.
  intros σ.
  destruct (Heap_init_outcome 1%positive σ [PyInt 1; PyInt 2] eq_refl)
    as (r & σ1 & Hinit & _).
  exists r, σ1. exact Hinit.
Defined.

Lemma Heap_init_twice_witness :
  let σ : gmap positive (list pyobj) := {[ 1%positive := [PyInt 1; PyInt 2] ]} in
  let σ1 := <[fresh (dom σ) := [PyInt 1; PyInt 2]]> σ in
  fresh (dom σ) <> fresh (dom σ1).
Proof.
  intros σ σ1.
  refine (proj1 (Heap_init_twice 1%positive σ σ1
                   (<[fresh (dom σ1) := [PyInt 1; PyInt 2]]> σ1)
                   (Heap.mkConstArray (fresh (dom σ)))
                   (Heap.mkConstArray (fresh (dom σ1))) _ _));
    vm_compute; reflexivity.
Defined.

(** ** The output is never the empty pair of brackets *)

Lemma int_str_nonempty n : int_str n <> EmptyString.
Proof.
  unfold int_str. destruct (Z.to_int n) as [d|d]; cbn; [|discriminate].
  destruct d; discriminate.
Qed.

Lemma concat_nonempty (sep : string) (l : list string) :
  l <> [] -> Forall (fun x => x <> EmptyString) l ->
  String.concat sep l <> EmptyString.
Proof.
  intros Hne Hall. destruct Hall as [|x l Hx Hall]; [contradiction|].
  destruct l as [|y l]; [exact Hx|].
  change (x +:+ sep +:+ String.concat sep (y :: l) <> EmptyString).
  destruct x; [contradiction|discriminate].
Qed.

Section NeverEmptyBrackets.
Context `{Collaborators}.
Hypothesis quote_string_nonempty : forall s, quote_string s <> EmptyString.
Hypothesis float_str_nonempty : forall x, float_str x <> EmptyString.
Hypothesis Decimal_str_nonempty : forall d, Decimal_str d <> EmptyString.

Lemma _format_constant_nonempty v :
  valid_kind v -> _format_constant v <> EmptyString.
Proof.
  intros Hv. rewrite _format_constant_by_kind.
  destruct v as [p|s|n|x|[]|d|q]; cbn; auto using int_str_nonempty;
    try discriminate.
  destruct Hv as [c Hc]. discriminate Hc.
Qed.

(** X13: the constructor asserts that the sequence is not empty because the
    empty pair of brackets is not a constant link for EPICS.  Provided
    [quote_string] and [str] on floats and decimals never return the
    empty text, [FormatDb] on a constructed array never returns the empty
    pair of brackets. *)
Theorem FormatDb_not_empty_brackets raw self record fieldname text :
  __init__ raw = Return self ->
  FormatDb record fieldname self = Return (text, self) ->
  text <> "[]".
Proof.
  intros Hinit.
  destruct (init_Return_iff_aux raw self Hinit) as (-> & Hne & Hhom).
  rewrite FormatDb_joined. cbn [_ConstArray__value]. intros [= <-] Hempty.
  change ("[" +:+ joined raw +:+ "]" = "[" +:+ EmptyString +:+ "]") in Hempty.
  injection Hempty as Hempty. apply append_bracket_inj in Hempty.
  revert Hempty. apply concat_nonempty.
  - destruct raw; [contradiction|discriminate].
  - apply Forall_map. destruct Hhom as [Hall|Hall];
      eapply Forall_impl; try exact Hall; intros v Hv;
      apply _format_constant_nonempty;
      [apply string_like_valid|apply numeric_like_valid]; exact Hv.
Qed.

End NeverEmptyBrackets.

Lemma append_nonempty_l (s1 s2 : string) :
  s1 <> EmptyString -> s1 +:+ s2 <> EmptyString.
Proof. destruct s1; [contradiction|discriminate]. Qed.

Lemma append_nonempty_r (s1 s2 : string) :
  s2 <> EmptyString -> s1 +:+ s2 <> EmptyString.
Proof. destruct s1; [intros Hs; exact Hs|discriminate]. Qed.

Lemma Sample_float_str_nonempty x : Sample.float_str x <> EmptyString.
Proof.
  destruct x as [s|s| |s m e]; cbn [Sample.float_str];
    try (apply append_nonempty_r; discriminate); [discriminate|].
  apply append_nonempty_r, append_nonempty_l, int_str_nonempty.
Qed.

Lemma Sample_Decimal_str_nonempty d : Sample.Decimal_str d <> EmptyString.
Proof.
  destruct d as [s c e|s|s sig]; cbn [Sample.Decimal_str].
  - destruct e; apply append_nonempty_r;
      try apply append_nonempty_l; apply int_str_nonempty.
  - apply append_nonempty_r. discriminate.
  - apply append_nonempty_r. destruct sig; discriminate.
Qed.

Lemma FormatDb_not_empty_brackets_witness : "[7]" <> "[]".
Proof.
  refine (FormatDb_not_empty_brackets (H := Sample.collaborators) _ _ _
            [PyInt 7] (mkConstArray [PyInt 7])
            (PyObject "record") (PyStr "INP") "[7]" eq_refl eq_refl).
  - intros s. discriminate.
  - exact Sample_float_str_nonempty.
  - exact Sample_Decimal_str_nonempty.
Defined.
